(** * SlideApp home window: the mode toggle, the two fields and the Begin button

    A shallow embedding of [src/HomeWindow.h] and [src/HomeWindow.cpp].

    The class owns five widget pointers, all [nullptr] until [setupUi] has
    run.  Widgets live on a heap of toolkit objects and are reached through
    addresses, because the button group holds the addresses of the two mode
    buttons and unchecks one of them when the other is checked: the slots
    never uncheck a button themselves.

    Member functions are computations in a state-and-fault monad over the
    heap and the window's fields.  A null or ill-typed pointer dereference is
    a fault, so "the operation completes" is a statement one can prove. *)

From Stdlib Require Import String Ascii List Bool.
From stdpp Require Import base option list strings.
Import ListNotations.

(** ** Pointers, faults and outcomes *)

(** A [T *]: [None] is [nullptr], [Some a] the address of a live object. *)
Definition ptr : Type := option nat.
Definition nullptr : ptr := None.

Definition ptr_eqb (p q : ptr) : bool :=
  match p, q with
  | Some a, Some b => Nat.eqb a b
  | None, None => true
  | _, _ => false
  end.

Inductive fault : Type :=
| NullPointer    (* a member call through nullptr *)
| Dangling       (* an address with no object behind it *)
| WrongClass     (* an object of another class than the pointer's type *)
| Exhausted.     (* the call-depth bound of the model was reached *)

Inductive outcome (A : Type) : Type :=
| Done (a : A)
| Crash (f : fault).
Arguments Done {A} a.
Arguments Crash {A} f.

(** ** Toolkit objects *)

(** The member functions of [HomeWindow] that are used as slots:
    [&HomeWindow::setModeResearcher] and [&HomeWindow::setModeAdmin]. *)
Inductive Slot : Type :=
| Slot_setModeResearcher
| Slot_setModeAdmin.

(** The state of a [QPushButton] that the program reads or writes.  Geometry
    and the parent pointer are left out. *)
Record QPushButton : Type := mkButton {
  btn_text : string;
  btn_objectName : string;
  btn_checkable : bool;
  btn_checked : bool;
  btn_styleSheet : string;
  btn_group : ptr;              (* the QButtonGroup it was added to *)
  btn_clicked : list Slot       (* receivers connected to clicked() *)
}.

Record QLineEdit : Type := mkLineEdit {
  le_text : string;
  le_objectName : string;
  le_placeholderText : string
}.

Record QButtonGroup : Type := mkGroup {
  grp_exclusive : bool;
  grp_buttonList : list nat;
  grp_checkedButton : ptr
}.

Inductive QObject : Type :=
| PushButton (b : QPushButton)
| LineEdit (e : QLineEdit)
| ButtonGroup (g : QButtonGroup).

(** ** The window and the world *)

(** The data members of [class HomeWindow] (HomeWindow.h, lines 21-25),
    together with what [QMainWindow] keeps for it. *)
Record HomeWindow : Type := mkHomeWindow {
  parent : ptr;
  windowTitle : string;
  styleSheet : string;
  researcherButton_ : ptr;
  adminButton_ : ptr;
  userEdit_ : ptr;
  outputDirEdit_ : ptr;
  beginButton_ : ptr
}.

Record World : Type := mkWorld {
  heap : list QObject;
  this : HomeWindow
}.

Definition with_heap (h : list QObject) (w : World) : World :=
  mkWorld h (this w).
Definition with_this (t : HomeWindow) (w : World) : World :=
  mkWorld (heap w) t.

(** ** The monad *)

Definition M (A : Type) : Type := World -> outcome (A * World).

#[global] Instance M_ret : MRet M := fun A a w => Done (a, w).
#[global] Instance M_bind : MBind M := fun A B f m w =>
  match m w with
  | Done (a, w') => f a w'
  | Crash e => Crash e
  end.

Definition crash {A : Type} (e : fault) : M A := fun _ => Crash e.
Definition inspect {A : Type} (f : World -> A) : M A := fun w => Done (f w, w).
Definition get_this : M HomeWindow := fun w => Done (this w, w).
Definition put_this (t : HomeWindow) : M unit := fun w => Done (tt, with_this t w).

(** [new T(...)]: the object is placed at the next free address. *)
Definition new (o : QObject) : M ptr := fun w =>
  Done (Some (length (heap w)), with_heap (heap w ++ [o]) w).

Definition load (p : ptr) : M QObject := fun w =>
  match p with
  | None => Crash NullPointer
  | Some a =>
      match heap w !! a with
      | Some o => Done (o, w)
      | None => Crash Dangling
      end
  end.

Definition store (p : ptr) (o : QObject) : M unit := fun w =>
  match p with
  | None => Crash NullPointer
  | Some a => Done (tt, with_heap (<[a := o]> (heap w)) w)
  end.

Definition button (p : ptr) : M QPushButton :=
  o ← load p;
  match o with PushButton b => mret b | _ => crash WrongClass end.

Definition lineEdit (p : ptr) : M QLineEdit :=
  o ← load p;
  match o with LineEdit e => mret e | _ => crash WrongClass end.

Definition buttonGroup (p : ptr) : M QButtonGroup :=
  o ← load p;
  match o with ButtonGroup g => mret g | _ => crash WrongClass end.

Definition world_of {A : Type} (r : outcome (A * World)) : outcome World :=
  match r with
  | Done (_, w) => Done w
  | Crash e => Crash e
  end.

(** ** Toolkit behaviour

    What follows is not code of the repository: it is the behaviour of the
    toolkit classes the repository calls ([QAbstractButton], [QButtonGroup],
    [QLineEdit], [QStandardPaths], [QDir]), written out as far as the window
    depends on it.  Signals nobody is connected to ([toggled], [textChanged],
    the group's [buttonClicked]) are not emitted in the model. *)

Module Qt.

(** *** QPushButton as a QAbstractButton *)

Definition new_QPushButton (text : string) : M ptr :=
  new (PushButton (mkButton text "" false false "" nullptr [])).

Definition set_btn_objectName (s : string) (b : QPushButton) : QPushButton :=
  mkButton (btn_text b) s (btn_checkable b) (btn_checked b)
           (btn_styleSheet b) (btn_group b) (btn_clicked b).
Definition set_btn_checkable (c : bool) (b : QPushButton) : QPushButton :=
  mkButton (btn_text b) (btn_objectName b) c (btn_checked b)
           (btn_styleSheet b) (btn_group b) (btn_clicked b).
Definition set_btn_checked (c : bool) (b : QPushButton) : QPushButton :=
  mkButton (btn_text b) (btn_objectName b) (btn_checkable b) c
           (btn_styleSheet b) (btn_group b) (btn_clicked b).
Definition set_btn_styleSheet (s : string) (b : QPushButton) : QPushButton :=
  mkButton (btn_text b) (btn_objectName b) (btn_checkable b) (btn_checked b)
           s (btn_group b) (btn_clicked b).
Definition set_btn_group (g : ptr) (b : QPushButton) : QPushButton :=
  mkButton (btn_text b) (btn_objectName b) (btn_checkable b) (btn_checked b)
           (btn_styleSheet b) g (btn_clicked b).
Definition add_btn_clicked (s : Slot) (b : QPushButton) : QPushButton :=
  mkButton (btn_text b) (btn_objectName b) (btn_checkable b) (btn_checked b)
           (btn_styleSheet b) (btn_group b) (btn_clicked b ++ [s]).

Definition update_button (p : ptr) (f : QPushButton -> QPushButton) : M unit :=
  b ← button p; store p (PushButton (f b)).

Definition QPushButton_setObjectName (p : ptr) (name : string) : M unit :=
  update_button p (set_btn_objectName name).

(** Turning checkability on or off resets the checked flag; setting it to
    the value it has does nothing. *)
Definition setCheckable (p : ptr) (checkable : bool) : M unit :=
  b ← button p;
  if Bool.eqb (btn_checkable b) checkable then mret tt
  else store p (PushButton (set_btn_checked false (set_btn_checkable checkable b))).

Definition isChecked (p : ptr) : M bool :=
  b ← button p; mret (btn_checked b).

Definition QPushButton_setStyleSheet (p : ptr) (sheet : string) : M unit :=
  update_button p (set_btn_styleSheet sheet).

(** [connect(sender, &QPushButton::clicked, this, slot)] *)
Definition connect_clicked (sender : ptr) (slot : Slot) : M unit :=
  update_button sender (add_btn_clicked slot).

(** *** QButtonGroup *)

Definition set_grp_exclusive (e : bool) (g : QButtonGroup) : QButtonGroup :=
  mkGroup e (grp_buttonList g) (grp_checkedButton g).
Definition set_grp_buttonList (l : list nat) (g : QButtonGroup) : QButtonGroup :=
  mkGroup (grp_exclusive g) l (grp_checkedButton g).
Definition set_grp_checkedButton (c : ptr) (g : QButtonGroup) : QButtonGroup :=
  mkGroup (grp_exclusive g) (grp_buttonList g) c.

(** A new group is exclusive. *)
Definition new_QButtonGroup : M ptr :=
  new (ButtonGroup (mkGroup true [] nullptr)).

Definition update_group (p : ptr) (f : QButtonGroup -> QButtonGroup) : M unit :=
  g ← buttonGroup p; store p (ButtonGroup (f g)).

Definition setExclusive (grp : ptr) (exclusive : bool) : M unit :=
  update_group grp (set_grp_exclusive exclusive).

(** The first button of the list, other than [previous], that is checked. *)
Fixpoint first_checked (previous : ptr) (l : list nat) : M ptr :=
  match l with
  | [] => mret nullptr
  | a :: l' =>
      c ← isChecked (Some a);
      if negb (ptr_eqb (Some a) previous) && c then mret (Some a)
      else first_checked previous l'
  end.

Definition detectCheckedButton (grp : ptr) : M unit :=
  g ← buttonGroup grp;
  let previous := grp_checkedButton g in
  update_group grp (set_grp_checkedButton nullptr);;
  if grp_exclusive g then mret tt
  else
    c ← first_checked previous (grp_buttonList g);
    update_group grp (set_grp_checkedButton c).

Definition remove_address (p : ptr) (l : list nat) : list nat :=
  filter (fun a => negb (ptr_eqb (Some a) p) = true) l.

Definition removeButton (grp b : ptr) : M unit :=
  g ← buttonGroup grp;
  (if ptr_eqb (grp_checkedButton g) b then detectCheckedButton grp else mret tt);;
  d ← button b;
  if ptr_eqb (btn_group d) grp then
    update_button b (set_btn_group nullptr);;
    g' ← buttonGroup grp;
    update_group grp (set_grp_buttonList (remove_address b (grp_buttonList g')))
  else mret tt.

(** The group's checked button, for a button in a group; a push button
    outside any group has none (auto-exclusivity is off for push buttons and
    the program never turns it on). *)
Definition queryCheckedButton (p : ptr) : M ptr :=
  b ← button p;
  match btn_group b with
  | Some _ => g ← buttonGroup (btn_group b); mret (grp_checkedButton g)
  | None => mret nullptr
  end.

Definition nextCheckState (setChecked : ptr -> bool -> M unit) (p : ptr) : M unit :=
  b ← button p;
  if btn_checkable b then setChecked p (negb (btn_checked b)) else mret tt.

(** A button that has just become checked records itself as its group's
    checked button; in an exclusive group the previously checked button is
    toggled, which unchecks it. *)
Definition notifyChecked (setChecked : ptr -> bool -> M unit) (p : ptr) : M unit :=
  b ← button p;
  match btn_group b with
  | Some _ =>
      g ← buttonGroup (btn_group b);
      let previous := grp_checkedButton g in
      update_group (btn_group b) (set_grp_checkedButton p);;
      if grp_exclusive g && bool_decide (previous ≠ nullptr)
         && negb (ptr_eqb previous p)
      then nextCheckState setChecked previous
      else mret tt
  | None => mret tt
  end.

(** [QAbstractButton::setChecked].  The toolkit's function calls itself
    through [notifyChecked] and [nextCheckState]; [depth] bounds the nesting
    of these calls, and reaching the bound is the fault [Exhausted]. *)
Fixpoint setChecked_rec (depth : nat) (p : ptr) (checked : bool) : M unit :=
  match depth with
  | O => crash Exhausted
  | S depth' =>
      b ← button p;
      if negb (btn_checkable b) || Bool.eqb (btn_checked b) checked then mret tt
      else
        (* the checked button of an exclusive group cannot be unchecked *)
        refused ←
          (if negb checked then
             q ← queryCheckedButton p;
             if ptr_eqb q p then
               match btn_group b with
               | Some _ =>
                   g ← buttonGroup (btn_group b);
                   if grp_exclusive g then mret true
                   else detectCheckedButton (btn_group b);; mret false
               | None => mret false
               end
             else mret false
           else mret false);
        if (refused : bool) then mret tt
        else
          update_button p (set_btn_checked checked);;
          if checked then notifyChecked (setChecked_rec depth') p else mret tt
  end.

Definition call_depth : nat := 8.

Definition setChecked : ptr -> bool -> M unit := setChecked_rec call_depth.

Definition addButton (grp b : ptr) : M unit :=
  d ← button b;
  (match btn_group d with
   | Some _ => removeButton (btn_group d) b
   | None => mret tt
   end);;
  update_button b (set_btn_group grp);;
  g ← buttonGroup grp;
  match b with
  | Some a =>
      update_group grp (set_grp_buttonList (grp_buttonList g ++ [a]));;
      c ← isChecked b;
      if grp_exclusive g && c then notifyChecked setChecked b else mret tt
  | None => crash NullPointer
  end.

(** *** QLineEdit *)

Definition new_QLineEdit : M ptr :=
  new (LineEdit (mkLineEdit "" "" "")).

Definition update_lineEdit (p : ptr) (f : QLineEdit -> QLineEdit) : M unit :=
  e ← lineEdit p; store p (LineEdit (f e)).

Definition QLineEdit_setObjectName (p : ptr) (name : string) : M unit :=
  update_lineEdit p (fun e => mkLineEdit (le_text e) name (le_placeholderText e)).

Definition setPlaceholderText (p : ptr) (s : string) : M unit :=
  update_lineEdit p (fun e => mkLineEdit (le_text e) (le_objectName e) s).

Definition isEmpty (s : string) : bool :=
  match s with
  | EmptyString => true
  | String _ _ => false
  end.

(** [QString::left]: the [n] leftmost characters, the whole text when it has
    no more than [n]. *)
Definition QString_left (n : nat) (s : string) : string :=
  String.substring 0 n s.

(** A line edit holds 32767 characters at most unless [setMaxLength] says
    otherwise, and the program never calls it. *)
Definition maxLength : nat := 32767.

(** What [setText] keeps of a text: all of it up to [maxLength] characters,
    its leftmost [maxLength] characters beyond. *)
Definition capped (s : string) : string :=
  if isEmpty s then s else QString_left maxLength s.

Definition setText (p : ptr) (s : string) : M unit :=
  update_lineEdit p
    (fun e => mkLineEdit (capped s) (le_objectName e) (le_placeholderText e)).

Definition text (p : ptr) : M string :=
  e ← lineEdit p; mret (le_text e).

(** *** QStandardPaths and QDir: what the platform reports *)

Inductive StandardLocation : Type :=
| DesktopLocation | DocumentsLocation | FontsLocation | ApplicationsLocation
| MusicLocation | MoviesLocation | PicturesLocation | TempLocation
| HomeLocation | AppLocalDataLocation | CacheLocation | GenericDataLocation
| RuntimeLocation | ConfigLocation | DownloadLocation | GenericCacheLocation
| GenericConfigLocation | AppDataLocation | AppConfigLocation.

Record Platform : Type := mkPlatform {
  writableLocation : StandardLocation -> string;
  homePath : string
}.

End Qt.

(** ** HomeWindow.cpp *)

Definition field (f : HomeWindow -> ptr) : M ptr :=
  t ← get_this; mret (f t).

Definition assign_researcherButton_ (p : ptr) : M unit :=
  t ← get_this;
  put_this (mkHomeWindow (parent t) (windowTitle t) (styleSheet t)
              p (adminButton_ t) (userEdit_ t) (outputDirEdit_ t) (beginButton_ t)).
Definition assign_adminButton_ (p : ptr) : M unit :=
  t ← get_this;
  put_this (mkHomeWindow (parent t) (windowTitle t) (styleSheet t)
              (researcherButton_ t) p (userEdit_ t) (outputDirEdit_ t) (beginButton_ t)).
Definition assign_userEdit_ (p : ptr) : M unit :=
  t ← get_this;
  put_this (mkHomeWindow (parent t) (windowTitle t) (styleSheet t)
              (researcherButton_ t) (adminButton_ t) p (outputDirEdit_ t) (beginButton_ t)).
Definition assign_outputDirEdit_ (p : ptr) : M unit :=
  t ← get_this;
  put_this (mkHomeWindow (parent t) (windowTitle t) (styleSheet t)
              (researcherButton_ t) (adminButton_ t) (userEdit_ t) p (beginButton_ t)).
Definition assign_beginButton_ (p : ptr) : M unit :=
  t ← get_this;
  put_this (mkHomeWindow (parent t) (windowTitle t) (styleSheet t)
              (researcherButton_ t) (adminButton_ t) (userEdit_ t) (outputDirEdit_ t) p).
Definition setWindowTitle (s : string) : M unit :=
  t ← get_this;
  put_this (mkHomeWindow (parent t) s (styleSheet t)
              (researcherButton_ t) (adminButton_ t) (userEdit_ t)
              (outputDirEdit_ t) (beginButton_ t)).
Definition setStyleSheet (s : string) : M unit :=
  t ← get_this;
  put_this (mkHomeWindow (parent t) (windowTitle t) s
              (researcherButton_ t) (adminButton_ t) (userEdit_ t)
              (outputDirEdit_ t) (beginButton_ t)).

(** The three style sheets the slots install on the mode buttons
    (HomeWindow.cpp lines 161-169, 185-193, and 171-179 = 195-203). *)
Definition sheet_researcher_active : string :=
  "QPushButton {" +:+
  "  background: #84F28A;" +:+
  "  color: #000000;" +:+
  "  border: none;" +:+
  "  border-radius: 11px;" +:+
  "  padding: 10px 18px;" +:+
  "  font-size: 25px;" +:+
  "}".

Definition sheet_admin_active : string :=
  "QPushButton {" +:+
  "  background: #F26565;" +:+
  "  color: #000000;" +:+
  "  border: none;" +:+
  "  border-radius: 11px;" +:+
  "  padding: 10px 18px;" +:+
  "  font-size: 25px;" +:+
  "}".

Definition sheet_inactive : string :=
  "QPushButton {" +:+
  "  background: #d9d9d9;" +:+
  "  color: #111111;" +:+
  "  border: none;" +:+
  "  border-radius: 11px;" +:+
  "  padding: 10px 18px;" +:+
  "  font-size: 25px;" +:+
  "}".

(** The window's own sheet (lines 123-155). *)
Definition sheet_window : string :=
  "QMainWindow { background: #000000; }" +:+
  "QWidget { color: #f2f2f2; font-family: 'Helvetica Neue'; }" +:+
  "QLabel#titleLabel { font-size: 78px; font-weight: 300; letter-spacing: 1px; }" +:+
  "QLabel#fieldLabel { font-size: 42px; font-weight: 400; }" +:+
  "QLineEdit#fieldInput {" +:+
  "  background: transparent;" +:+
  "  border: none;" +:+
  "  color: #ffffff;" +:+
  "  font-size: 42px;" +:+
  "  font-weight: 400;" +:+
  "  padding: 0;" +:+
  "}" +:+
  "QPushButton {" +:+
  "  background: #d9d9d9;" +:+
  "  color: #111111;" +:+
  "  border: none;" +:+
  "  border-radius: 11px;" +:+
  "  padding: 10px 18px;" +:+
  "  font-size: 25px;" +:+
  "}" +:+
  "QPushButton:hover { background: #ececec; }" +:+
  "QPushButton:pressed { background: #bbbbbb; }" +:+
  "QPushButton#beginButton {" +:+
  "  background: #84F28A;" +:+
  "  color: #000000;" +:+
  "  border-radius: 36px;" +:+
  "  font-size: 58px;" +:+
  "  font-weight: 500;" +:+
  "  padding-bottom: 8px;" +:+
  "}" +:+
  "QPushButton#beginButton:hover { background: #95f69a; }" +:+
  "QPushButton#beginButton:pressed { background: #76e87d; }".

(** [void HomeWindow::setModeResearcher()] (lines 158-180) *)
Definition setModeResearcher : M unit :=
  r ← field researcherButton_; Qt.setChecked r true;;
  r ← field researcherButton_; Qt.QPushButton_setStyleSheet r sheet_researcher_active;;
  a ← field adminButton_; Qt.QPushButton_setStyleSheet a sheet_inactive.

(** [void HomeWindow::setModeAdmin()] (lines 182-204) *)
Definition setModeAdmin : M unit :=
  a ← field adminButton_; Qt.setChecked a true;;
  a ← field adminButton_; Qt.QPushButton_setStyleSheet a sheet_admin_active;;
  r ← field researcherButton_; Qt.QPushButton_setStyleSheet r sheet_inactive.

(** [void HomeWindow::setupUi()] (lines 19-120).  The central widget, the
    layouts, the three labels and every geometry call ([resize],
    [setMinimumSize], [setMinimumWidth], [setFixedSize], margins, spacing and
    stretches) hold no state that the buttons, the group or the line edits
    read; they are left out, in place. *)
Definition setupUi (os : Qt.Platform) : M unit :=
  setWindowTitle "SlideApp";;

  p ← Qt.new_QPushButton "Researcher Mode"; assign_researcherButton_ p;;
  r ← field researcherButton_; Qt.setCheckable r true;;

  p ← Qt.new_QPushButton "Admin Mode"; assign_adminButton_ p;;
  a ← field adminButton_; Qt.setCheckable a true;;

  modeGroup ← Qt.new_QButtonGroup;
  Qt.setExclusive modeGroup true;;
  r ← field researcherButton_; Qt.addButton modeGroup r;;
  a ← field adminButton_; Qt.addButton modeGroup a;;

  p ← Qt.new_QLineEdit; assign_userEdit_ p;;
  u ← field userEdit_; Qt.QLineEdit_setObjectName u "fieldInput";;
  u ← field userEdit_; Qt.setPlaceholderText u "";;

  p ← Qt.new_QLineEdit; assign_outputDirEdit_ p;;
  o ← field outputDirEdit_; Qt.QLineEdit_setObjectName o "fieldInput";;
  o ← field outputDirEdit_; Qt.setPlaceholderText o "";;

  let downloads := Qt.writableLocation os Qt.DownloadLocation in
  let downloads :=
    if Qt.isEmpty downloads then Qt.homePath os +:+ "/Downloads" else downloads in
  o ← field outputDirEdit_; Qt.setText o downloads;;

  p ← Qt.new_QPushButton "Begin"; assign_beginButton_ p;;
  b ← field beginButton_; Qt.QPushButton_setObjectName b "beginButton";;

  r ← field researcherButton_; Qt.setChecked r true;;
  setModeResearcher;;

  r ← field researcherButton_; Qt.connect_clicked r Slot_setModeResearcher;;
  a ← field adminButton_; Qt.connect_clicked a Slot_setModeAdmin.

(** [void HomeWindow::applyStyles()] (lines 122-156) *)
Definition applyStyles : M unit :=
  setStyleSheet sheet_window.

(** The members as the header initialises them (HomeWindow.h, lines 21-25),
    on a heap with no widget yet. *)
Definition unbuilt (parent : ptr) : World :=
  mkWorld [] (mkHomeWindow parent "" "" nullptr nullptr nullptr nullptr nullptr).

(** [HomeWindow::HomeWindow(QWidget *parent)] (lines 13-17) *)
Definition HomeWindow_ctor (os : Qt.Platform) (parent : ptr) : outcome World :=
  world_of ((setupUi os;; applyStyles) (unbuilt parent)).

(** ** Events

    After construction the program runs only when the toolkit delivers an
    event.  A click goes through the button's own check-state logic and then
    to the slots connected to [clicked]; typing into a line edit changes its
    text, and nothing is connected to the edit's signals. *)

Definition invoke (s : Slot) : M unit :=
  match s with
  | Slot_setModeResearcher => setModeResearcher
  | Slot_setModeAdmin => setModeAdmin
  end.

(** Runs the connected slots in connection order; returns those it ran. *)
Fixpoint emit (slots : list Slot) : M (list Slot) :=
  match slots with
  | [] => mret []
  | s :: rest => invoke s;; ran ← emit rest; mret (s :: ran)
  end.

(** [QAbstractButton::click]: the button toggles unless it is the checked
    button of an exclusive group, then [clicked] is emitted. *)
Definition click (p : ptr) : M (list Slot) :=
  b ← button p;
  changeState ←
    (if btn_checked b then
       q ← Qt.queryCheckedButton p;
       if ptr_eqb q p then
         match btn_group b with
         | Some _ => g ← buttonGroup (btn_group b); mret (negb (grp_exclusive g))
         | None => mret true
         end
       else mret true
     else mret true);
  (if (changeState : bool) then Qt.nextCheckState Qt.setChecked p else mret tt);;
  b' ← button p;
  emit (btn_clicked b').

(** The user edits a line edit until it reads [s]: the event is given by
    the text it ends with, which the edit holds as it is. *)
Definition typed (p : ptr) (s : string) : M unit :=
  Qt.update_lineEdit p (fun e => mkLineEdit s (le_objectName e) (le_placeholderText e)).

Inductive Action : Type :=
| CallSetModeResearcher          (* the slot, called directly *)
| CallSetModeAdmin
| ClickResearcher                (* the user clicks a button *)
| ClickAdmin
| ClickBegin
| TypeUser (s : string)          (* the user edits a field *)
| TypeOutputDir (s : string).

Definition perform (a : Action) : M unit :=
  match a with
  | CallSetModeResearcher => setModeResearcher
  | CallSetModeAdmin => setModeAdmin
  | ClickResearcher => p ← field researcherButton_; click p;; mret tt
  | ClickAdmin => p ← field adminButton_; click p;; mret tt
  | ClickBegin => p ← field beginButton_; click p;; mret tt
  | TypeUser s => p ← field userEdit_; typed p s
  | TypeOutputDir s => p ← field outputDirEdit_; typed p s
  end.

Fixpoint run (acts : list Action) (w : World) : outcome World :=
  match acts with
  | [] => Done w
  | a :: rest =>
      match perform a w with
      | Done (_, w') => run rest w'
      | Crash e => Crash e
      end
  end.

(** A window is constructed, then the actions happen in order. *)
Definition session (os : Qt.Platform) (parent : ptr) (acts : list Action) : outcome World :=
  match HomeWindow_ctor os parent with
  | Done w => run acts w
  | Crash e => Crash e
  end.

(** ** What an observer reads off the window

    The class has no mode variable: the mode is which of the two mode
    buttons is checked.  The user name and the output directory are the
    texts of the two line edits. *)

Inductive Mode : Type := Researcher | Admin.

Record FormState : Type := mkFormState {
  fs_mode : Mode;
  fs_userName : string;
  fs_outputDirectory : string
}.

Definition peek {A : Type} (m : M A) (w : World) : option A :=
  match m w with
  | Done (a, _) => Some a
  | Crash _ => None
  end.

Definition checked_at (f : HomeWindow -> ptr) (w : World) : option bool :=
  peek (p ← field f; Qt.isChecked p) w.

Definition sheet_at (f : HomeWindow -> ptr) (w : World) : option string :=
  peek (p ← field f; b ← button p; mret (btn_styleSheet b)) w.

Definition mode (w : World) : option Mode :=
  r ← checked_at researcherButton_ w;
  a ← checked_at adminButton_ w;
  match r, a with
  | true, false => Some Researcher
  | false, true => Some Admin
  | _, _ => None
  end.

Definition userName (w : World) : option string :=
  peek (p ← field userEdit_; Qt.text p) w.

Definition outputDirectory (w : World) : option string :=
  peek (p ← field outputDirEdit_; Qt.text p) w.

Definition formState (w : World) : option FormState :=
  m ← mode w; u ← userName w; o ← outputDirectory w;
  Some (mkFormState m u o).

(** *** Reading a colour out of a style sheet *)

(** The text that follows the first occurrence of [pat] in [s]. *)
Definition after (pat s : string) : option string :=
  i ← String.index 0 pat s;
  Some (String.substring (i + String.length pat)
                         (String.length s - (i + String.length pat)) s).

(** The text that precedes the first occurrence of [pat] in [s]. *)
Definition before (pat s : string) : string :=
  match String.index 0 pat s with
  | Some i => String.substring 0 i s
  | None => s
  end.

(** The background a sheet declares for plain push buttons. *)
Definition button_background (sheet : string) : option string :=
  body ← after "QPushButton {" sheet;
  value ← after "background: " (before "}" body);
  Some (before ";" value).

(** The colour that sets a button apart: the background of its own sheet,
    when it has one and it is not the background the window gives every push
    button anyway. *)
Definition highlight (f : HomeWindow -> ptr) (w : World) : option string :=
  own ← sheet_at f w;
  c ← button_background own;
  if decide (button_background (styleSheet (this w)) = Some c) then None else Some c.

Definition marked_active (f : HomeWindow -> ptr) (w : World) : bool :=
  bool_decide (checked_at f w = Some true) && bool_decide (is_Some (highlight f w)).

Definition marked_inactive (f : HomeWindow -> ptr) (w : World) : bool :=
  bool_decide (checked_at f w = Some false) && bool_decide (highlight f w = None).

Definition exactly_one_active (w : World) : bool :=
  (marked_active researcherButton_ w && marked_inactive adminButton_ w)
  || (marked_inactive researcherButton_ w && marked_active adminButton_ w).

(** What the mode buttons show: check marks and sheets. *)
Definition mode_display (w : World)
  : option bool * option bool * option string * option string :=
  (checked_at researcherButton_ w, checked_at adminButton_ w,
   sheet_at researcherButton_ w, sheet_at adminButton_ w).

(** *** What activating the Begin button hands over

    Values can leave the window only through a slot that runs.  On the most
    generous reading every slot run by the click receives the form as it
    stands. *)
Definition activateBegin : M (list (option FormState)) :=
  p ← field beginButton_;
  ran ← click p;
  form ← inspect formState;
  mret (map (fun _ => form) ran).

(** ** The states a session can be in *)

Definition is_researcher (m : Mode) : bool :=
  match m with Researcher => true | Admin => false end.

(** The world after construction and any number of actions, when the mode
    is [m] and the fields read [u] and [o]. *)
Definition settled (parent : ptr) (m : Mode) (u o : string) : World :=
  mkWorld
    [ PushButton (mkButton "Researcher Mode" "" true (is_researcher m)
                    (if is_researcher m then sheet_researcher_active else sheet_inactive)
                    (Some 2) [Slot_setModeResearcher]);
      PushButton (mkButton "Admin Mode" "" true (negb (is_researcher m))
                    (if is_researcher m then sheet_inactive else sheet_admin_active)
                    (Some 2) [Slot_setModeAdmin]);
      ButtonGroup (mkGroup true [0; 1] (Some (if is_researcher m then 0 else 1)));
      LineEdit (mkLineEdit u "fieldInput" "");
      LineEdit (mkLineEdit o "fieldInput" "");
      PushButton (mkButton "Begin" "beginButton" false false "" nullptr []) ]
    (mkHomeWindow parent "SlideApp" sheet_window
       (Some 0) (Some 1) (Some 3) (Some 4) (Some 5)).

(** The path lines 85-88 choose, and what line 89 leaves of it in the
    field. *)
Definition initial_directory (os : Qt.Platform) : string :=
  if Qt.isEmpty (Qt.writableLocation os Qt.DownloadLocation)
  then Qt.homePath os +:+ "/Downloads"
  else Qt.writableLocation os Qt.DownloadLocation.

Definition installed_directory (os : Qt.Platform) : string :=
  Qt.capped (initial_directory os).

Definition mode_after (a : Action) (m : Mode) : Mode :=
  match a with
  | CallSetModeResearcher | ClickResearcher => Researcher
  | CallSetModeAdmin | ClickAdmin => Admin
  | _ => m
  end.

Definition user_after (a : Action) (u : string) : string :=
  match a with TypeUser s => s | _ => u end.

Definition dir_after (a : Action) (o : string) : string :=
  match a with TypeOutputDir s => s | _ => o end.

(** ** The mode selections as calls *)

Inductive ModeCall : Type := SelectResearcher | SelectAdmin.

Definition selection (c : ModeCall) : Action :=
  match c with
  | SelectResearcher => CallSetModeResearcher
  | SelectAdmin => CallSetModeAdmin
  end.

Definition selected (c : ModeCall) : Mode :=
  match c with
  | SelectResearcher => Researcher
  | SelectAdmin => Admin
  end.

(** An action completes on [w] and leaves the observation [obs], which is
    defined on [w], as it was. *)
Definition preserves {A : Type} (obs : World -> option A) (a : Action) (w : World) : Prop :=
  exists w', perform a w = Done (tt, w') /\ is_Some (obs w) /\ obs w' = obs w.

(** The scenario of the specification: the user types a name and an output
    directory; the mode is left as constructed. *)
Definition scenario : list Action :=
  [TypeUser "alice"; TypeOutputDir "/tmp/out"].

(** Two platforms that agree on the downloads location and on the home path
    and on nothing else. *)
Definition example_platform : Qt.Platform :=
  Qt.mkPlatform
    (fun l => match l with
              | Qt.DownloadLocation => "/home/lab/Downloads"
              | Qt.TempLocation => "/tmp"
              | _ => "/home/lab"
              end)
    "/home/lab".

Definition other_platform : Qt.Platform :=
  Qt.mkPlatform
    (fun l => match l with
              | Qt.DownloadLocation => "/home/lab/Downloads"
              | _ => ""
              end)
    "/home/lab".

(** The two mode buttons as [setupUi] would leave them without lines 39-42:
    checkable, Researcher checked, in no group. *)
Definition ungrouped : World :=
  mkWorld
    [ PushButton (mkButton "Researcher Mode" "" true true sheet_researcher_active
                    nullptr [Slot_setModeResearcher]);
      PushButton (mkButton "Admin Mode" "" true false sheet_inactive
                    nullptr [Slot_setModeAdmin]) ]
    (mkHomeWindow nullptr "SlideApp" sheet_window
       (Some 0) (Some 1) nullptr nullptr nullptr).

(** ** The form as a three-field machine

    What the widgets implement: a mode and two texts, each replaced by the
    action that addresses it and left alone by every other action. *)

Definition form_init (os : Qt.Platform) : FormState :=
  mkFormState Researcher "" (installed_directory os).

Definition form_step (f : FormState) (a : Action) : FormState :=
  mkFormState (mode_after a (fs_mode f))
              (user_after a (fs_userName f))
              (dir_after a (fs_outputDirectory f)).

(** The slot and the button that select a mode. *)
Definition call_for (m : Mode) : Action :=
  match m with Researcher => CallSetModeResearcher | Admin => CallSetModeAdmin end.

Definition click_for (m : Mode) : Action :=
  match m with Researcher => ClickResearcher | Admin => ClickAdmin end.

Definition button_for (m : Mode) : HomeWindow -> ptr :=
  match m with Researcher => researcherButton_ | Admin => adminButton_ end.

Definition slot_for (m : Mode) : Slot :=
  match m with Researcher => Slot_setModeResearcher | Admin => Slot_setModeAdmin end.

(** *** The shape [setupUi] gives the world

    The five widgets the window points to and the mode group sit at six
    different addresses: the two mode buttons, checkable, in one exclusive
    group that lists exactly the two of them and records the checked one,
    each connected to its own slot; the two line edits; the Begin button,
    not checkable, in no group, connected to nothing. *)
Definition wired (w : World) : Prop :=
  exists r a g u o b br ba grp eu eo bb,
    researcherButton_ (this w) = Some r
    /\ adminButton_ (this w) = Some a
    /\ userEdit_ (this w) = Some u
    /\ outputDirEdit_ (this w) = Some o
    /\ beginButton_ (this w) = Some b
    /\ NoDup [r; a; g; u; o; b]
    /\ heap w !! r = Some (PushButton br)
    /\ heap w !! a = Some (PushButton ba)
    /\ heap w !! g = Some (ButtonGroup grp)
    /\ heap w !! u = Some (LineEdit eu)
    /\ heap w !! o = Some (LineEdit eo)
    /\ heap w !! b = Some (PushButton bb)
    /\ (btn_text br = "Researcher Mode" /\ btn_checkable br = true
        /\ btn_group br = Some g /\ btn_clicked br = [Slot_setModeResearcher])
    /\ (btn_text ba = "Admin Mode" /\ btn_checkable ba = true
        /\ btn_group ba = Some g /\ btn_clicked ba = [Slot_setModeAdmin])
    /\ btn_checked ba = negb (btn_checked br)
    /\ (grp_exclusive grp = true /\ grp_buttonList grp = [r; a]
        /\ grp_checkedButton grp = Some (if btn_checked br then r else a))
    /\ (btn_text bb = "Begin" /\ btn_checkable bb = false /\ btn_checked bb = false
        /\ btn_group bb = nullptr /\ btn_clicked bb = []).

(** *** What a computation leaves alone

    The line edits of a heap, address by address, and the relation between
    two worlds with the same window fields and the same line edits.  A
    computation is [framing] when every run of it that completes relates the
    world it started in to the world it ends in. *)

Definition edit_of (o : QObject) : option QLineEdit :=
  match o with LineEdit e => Some e | _ => None end.

Definition edits (w : World) : list (option QLineEdit) :=
  edit_of <$> heap w.

Definition spares (w w' : World) : Prop :=
  this w' = this w /\ edits w' = edits w.

Definition framing {A : Type} (m : M A) : Prop :=
  forall w x w', m w = Done (x, w') -> spares w w'.

Definition is_edit (a : Action) : bool :=
  match a with TypeUser _ | TypeOutputDir _ => true | _ => false end.

Definition other (m : Mode) : Mode :=
  match m with Researcher => Admin | Admin => Researcher end.

(** The sheet a slot installs on its own button. *)
Definition sheet_active (m : Mode) : string :=
  match m with Researcher => sheet_researcher_active | Admin => sheet_admin_active end.

(** A platform whose downloads location is longer than a line edit holds:
    a slash and 32767 letters. *)
Definition long_path : string :=
  String "/" (string_of_list_ascii (repeat "a"%char Qt.maxLength)).

Definition long_platform : Qt.Platform :=
  Qt.mkPlatform (fun _ => long_path) "/home/lab".

(** ** Lemmas on sessions *)

Lemma ctor_settled (os : Qt.Platform) (parent : ptr) :
  HomeWindow_ctor os parent = Done (settled parent Researcher "" (installed_directory os)).
Proof.
  unfold HomeWindow_ctor, installed_directory, initial_directory.
  destruct os as [loc home]; cbn [Qt.writableLocation Qt.homePath].
  destruct (loc Qt.DownloadLocation) as [|c s] eqn:E.
  - unfold setupUi. cbn [Qt.writableLocation Qt.homePath]. rewrite E. reflexivity.
  - unfold setupUi. cbn [Qt.writableLocation Qt.homePath]. rewrite E. reflexivity.
Qed.

Lemma perform_settled (a : Action) (parent : ptr) (m : Mode) (u o : string) :
  perform a (settled parent m u o)
  = Done (tt, settled parent (mode_after a m) (user_after a u) (dir_after a o)).
Proof. destruct a, m; reflexivity. Qed.

Lemma run_settled (acts : list Action) (parent : ptr) (m : Mode) (u o : string) :
  exists m' u' o', run acts (settled parent m u o) = Done (settled parent m' u' o').
Proof.
  revert m u o. induction acts as [|a acts IH]; intros m u o.
  - exists m, u, o. reflexivity.
  - cbn [run]. rewrite perform_settled. apply IH.
Qed.

Lemma session_settled (os : Qt.Platform) (parent : ptr) (acts : list Action) :
  exists m u o, session os parent acts = Done (settled parent m u o).
Proof.
  unfold session. rewrite ctor_settled. apply run_settled.
Qed.

(** The same, for a state reached by a session and one more action. *)
Lemma session_step (os : Qt.Platform) (parent : ptr) (acts : list Action) (a : Action) :
  exists m u o,
    session os parent acts = Done (settled parent m u o)
    /\ perform a (settled parent m u o)
       = Done (tt, settled parent (mode_after a m) (user_after a u) (dir_after a o)).
Proof.
  destruct (session_settled os parent acts) as (m & u & o & E).
  exists m, u, o. split; [exact E | apply perform_settled].
Qed.

Lemma run_app (xs ys : list Action) (w : World) :
  run (xs ++ ys) w = match run xs w with Done w' => run ys w' | Crash e => Crash e end.
Proof.
  revert w. induction xs as [|a xs IH]; intros w; cbn [run app]; [reflexivity|].
  destruct (perform a w) as [[[] w']|e]; [apply IH | reflexivity].
Qed.

Lemma session_app (os : Qt.Platform) (parent : ptr) (xs ys : list Action) :
  session os parent (xs ++ ys)
  = match session os parent xs with Done w => run ys w | Crash e => Crash e end.
Proof.
  unfold session. destruct (HomeWindow_ctor os parent) as [w|e]; [apply run_app | reflexivity].
Qed.

(** Replaces the state a session ends in by its settled form. *)
Ltac reach os parent acts :=
  let m := fresh "m" in
  let u := fresh "u" in
  let o := fresh "o" in
  let E := fresh "E" in
  destruct (session_settled os parent acts) as (m & u & o & E);
  exists (settled parent m u o);
  split; [exact E|].

(** Before the constructor has run the slots have nothing to work on: the
    fault model is not vacuous. *)
Example slot_on_unbuilt_window :
  setModeAdmin (unbuilt nullptr) = Crash NullPointer
  /\ perform ClickBegin (unbuilt nullptr) = Crash NullPointer.
Proof. split; reflexivity. Qed.

(** The slots check a button and never uncheck one: it is the exclusive
    group that unchecks the other button.  Outside a group both end up
    checked and the window is in no mode. *)
Example slot_without_group :
  exists w, setModeAdmin ungrouped = Done (tt, w)
    /\ checked_at researcherButton_ w = Some true
    /\ checked_at adminButton_ w = Some true
    /\ mode w = None.
Proof. eexists. split; [vm_compute; reflexivity|]. repeat split. Qed.

(** The scenarios of the specification on a concrete platform. *)
Example toggle_scenario :
  exists w1 w2,
    session example_platform nullptr [ClickAdmin] = Done w1
    /\ mode w1 = Some Admin
    /\ marked_active adminButton_ w1 = true
    /\ marked_inactive researcherButton_ w1 = true
    /\ run [ClickResearcher] w1 = Done w2
    /\ mode w2 = Some Researcher.
Proof.
  eexists _, _. split; [vm_compute; reflexivity|].
  split; [reflexivity|].
  split; [vm_compute; reflexivity|].
  split; [vm_compute; reflexivity|].
  split; [vm_compute; reflexivity | reflexivity].
Qed.

Example fallback_scenario :
  exists w, HomeWindow_ctor (Qt.mkPlatform (fun _ => "") "/home/lab") nullptr = Done w
    /\ outputDirectory w = Some "/home/lab/Downloads".
Proof. eexists. split; [vm_compute; reflexivity | reflexivity]. Qed.

Lemma settled_exclusive (parent : ptr) (m : Mode) (u o : string) :
  exactly_one_active (settled parent m u o) = true
  /\ marked_active researcherButton_ (settled parent m u o)
     && marked_active adminButton_ (settled parent m u o) = false.
Proof. destruct m; split; vm_compute; reflexivity. Qed.

Lemma settled_mode (parent : ptr) (m : Mode) (u o : string) :
  mode (settled parent m u o) = Some m.
Proof. destruct m; reflexivity. Qed.

Lemma settled_userName (parent : ptr) (m : Mode) (u o : string) :
  userName (settled parent m u o) = Some u.
Proof. reflexivity. Qed.

Lemma settled_outputDirectory (parent : ptr) (m : Mode) (u o : string) :
  outputDirectory (settled parent m u o) = Some o.
Proof. reflexivity. Qed.

Lemma settled_formState (parent : ptr) (m : Mode) (u o : string) :
  formState (settled parent m u o) = Some (mkFormState m u o).
Proof. destruct m; reflexivity. Qed.

Lemma settled_activateBegin (parent : ptr) (m : Mode) (u o : string) :
  activateBegin (settled parent m u o) = Done ([], settled parent m u o).
Proof. destruct m; reflexivity. Qed.

(** The invariant behind the claims on exclusivity, for every action and not
    only for the two slots. *)
Lemma exactly_one_active_always (os : Qt.Platform) (parent : ptr) (acts : list Action) :
  exists w, session os parent acts = Done w /\ exactly_one_active w = true.
Proof. reach os parent acts. apply settled_exclusive. Qed.

(** A click on a mode button ends in the state the slot alone would give. *)
Lemma click_is_selection (os : Qt.Platform) (parent : ptr) (acts : list Action) :
  exists w, session os parent acts = Done w
    /\ perform ClickResearcher w = perform CallSetModeResearcher w
    /\ perform ClickAdmin w = perform CallSetModeAdmin w.
Proof.
  reach os parent acts. rewrite !perform_settled. split; reflexivity.
Qed.

(** *** The length cap of a line edit *)

Lemma QString_left_short (n : nat) (s : string) :
  String.length s <= n -> Qt.QString_left n s = s.
Proof.
  unfold Qt.QString_left. revert n. induction s as [|c s IH]; intros n H.
  - destruct n; reflexivity.
  - destruct n as [|n]; cbn in H; [lia|].
    cbn [String.substring]. rewrite IH by lia. reflexivity.
Qed.

Lemma capped_is_left (s : string) : Qt.capped s = Qt.QString_left Qt.maxLength s.
Proof.
  destruct s as [|c s]; [|reflexivity].
  unfold Qt.capped, Qt.QString_left. cbn [Qt.isEmpty].
  destruct Qt.maxLength; reflexivity.
Qed.

Lemma capped_short (s : string) :
  String.length s <= Qt.maxLength -> Qt.capped s = s.
Proof. intros H. rewrite capped_is_left. apply QString_left_short, H. Qed.

Lemma maxLength_positive : 0 < Qt.maxLength.
Proof. apply Nat.ltb_lt. vm_compute. reflexivity. Qed.

Lemma capped_nonempty (s : string) : s <> "" -> Qt.capped s <> "".
Proof.
  destruct s as [|c s]; intros H; [contradiction H; reflexivity|].
  unfold Qt.capped, Qt.QString_left. cbn [Qt.isEmpty].
  pose proof maxLength_positive as P.
  destruct Qt.maxLength; [lia|].
  cbn [String.substring]. discriminate.
Qed.

(** ** The claims *)

(** C1 (as the code has it).  No slot is connected to the Begin button:
    activating it in any state a session can reach runs nothing, hands
    nothing over and leaves the world as it was.  After the scenario of the
    specification the form reads (Researcher, "alice", "/tmp/out"), before
    and after the activation, and still nothing is handed over. *)
Theorem begin_hands_over_nothing (os : Qt.Platform) (parent : ptr) (acts : list Action) :
  (exists w, session os parent acts = Done w
     /\ activateBegin w = Done ([], w)
     /\ perform ClickBegin w = Done (tt, w))
  /\ (exists w, session os parent scenario = Done w
        /\ formState w = Some (mkFormState Researcher "alice" "/tmp/out")
        /\ activateBegin w = Done ([], w)).
Proof.
  split.
  - reach os parent acts. split.
    + apply settled_activateBegin.
    + apply (perform_settled ClickBegin).
  - exists (settled parent Researcher "alice" "/tmp/out"). split.
    + unfold session. rewrite ctor_settled. reflexivity.
    + split; [reflexivity | apply settled_activateBegin].
Qed.

(** C1 (as stated) fails: on a Linux-like platform, after the user name is
    set to "alice" and the output directory to "/tmp/out", the form reads
    (Researcher, "alice", "/tmp/out") but activating Begin delivers an empty
    list of hand-overs, not that triple. *)
Lemma begin_scenario_delivers_nothing :
  exists w, session example_platform nullptr scenario = Done w
    /\ formState w = Some (mkFormState Researcher "alice" "/tmp/out")
    /\ activateBegin w = Done ([], w)
    /\ ~ (exists w', activateBegin w
                     = Done ([Some (mkFormState Researcher "alice" "/tmp/out")], w')).
Proof.
  exists (settled nullptr Researcher "alice" "/tmp/out").
  split; [reflexivity|]. split; [reflexivity|]. split; [reflexivity|].
  intros [w' H]. discriminate H.
Qed.

(** C2.  After construction and any sequence of calls of the two mode slots,
    after each call (after every prefix of the sequence) exactly one of the
    two mode buttons is marked active, the other is marked inactive, and the
    two are not both active. *)
Theorem one_mode_active_after_each_call
    (os : Qt.Platform) (parent : ptr) (calls : list ModeCall) (n : nat) :
  exists w, session os parent (map selection (take n calls)) = Done w
    /\ exactly_one_active w = true
    /\ marked_active researcherButton_ w && marked_active adminButton_ w = false.
Proof.
  reach os parent (map selection (take n calls)). apply settled_exclusive.
Qed.

(** C3.  Right after construction the mode is Researcher: the Researcher
    button is checked and highlighted (in #84F28A), the Admin button is
    unchecked and carries no highlight. *)
Theorem constructed_in_researcher_mode (os : Qt.Platform) (parent : ptr) :
  exists w, HomeWindow_ctor os parent = Done w
    /\ mode w = Some Researcher
    /\ checked_at researcherButton_ w = Some true
    /\ highlight researcherButton_ w = Some "#84F28A"
    /\ marked_active researcherButton_ w = true
    /\ checked_at adminButton_ w = Some false
    /\ highlight adminButton_ w = None
    /\ marked_inactive adminButton_ w = true.
Proof.
  eexists. split; [apply ctor_settled|].
  repeat split; vm_compute; reflexivity.
Qed.

(** C4 (as the code has it).  Right after construction the output directory
    is the leftmost 32767 characters, the most a line edit holds, of the
    downloads location the platform reports when that is not empty, and of
    the home path followed by "/Downloads" when it is empty; a path of at
    most 32767 characters is installed whole. *)
Theorem constructed_output_directory (os : Qt.Platform) (parent : ptr) :
  exists w, HomeWindow_ctor os parent = Done w
    /\ (Qt.writableLocation os Qt.DownloadLocation <> ""
        -> outputDirectory w
           = Some (Qt.QString_left Qt.maxLength (Qt.writableLocation os Qt.DownloadLocation))
           /\ (String.length (Qt.writableLocation os Qt.DownloadLocation) <= Qt.maxLength
               -> outputDirectory w = Some (Qt.writableLocation os Qt.DownloadLocation)))
    /\ (Qt.writableLocation os Qt.DownloadLocation = ""
        -> outputDirectory w
           = Some (Qt.QString_left Qt.maxLength (Qt.homePath os +:+ "/Downloads"))
           /\ (String.length (Qt.homePath os +:+ "/Downloads") <= Qt.maxLength
               -> outputDirectory w = Some (Qt.homePath os +:+ "/Downloads"))).
Proof.
  eexists. split; [apply ctor_settled|].
  rewrite settled_outputDirectory. unfold installed_directory, initial_directory.
  destruct (Qt.writableLocation os Qt.DownloadLocation) as [|c s]; cbn [Qt.isEmpty].
  - split; [intros H; contradiction H; reflexivity|]. intros _. split.
    + rewrite capped_is_left. reflexivity.
    + intros L. rewrite capped_short by exact L. reflexivity.
  - split; [|intros H; discriminate H]. intros _. split.
    + rewrite capped_is_left. reflexivity.
    + intros L. rewrite capped_short by exact L. reflexivity.
Qed.

(** C4 (as stated) fails: on a platform that reports a downloads location of
    32768 characters, which is not empty, the output directory after
    construction is not that location. *)
Lemma long_downloads_location_is_cut :
  exists w, HomeWindow_ctor long_platform nullptr = Done w
    /\ Qt.writableLocation long_platform Qt.DownloadLocation <> ""
    /\ outputDirectory w
       <> Some (Qt.writableLocation long_platform Qt.DownloadLocation).
Proof.
  eexists. split; [apply ctor_settled|].
  split; [discriminate|].
  rewrite settled_outputDirectory. intros H.
  assert (H' : installed_directory long_platform = long_path)
    by exact (f_equal (fun x => match x with Some d => d | None => "" end) H).
  assert (L : Nat.eqb (String.length (installed_directory long_platform))
                      (String.length long_path) = false)
    by (vm_compute; reflexivity).
  rewrite H', Nat.eqb_refl in L. discriminate L.
Qed.

(** C5.  In every state a session can reach, editing the user name or the
    output directory completes and leaves the mode as it was, and selecting
    a mode (by calling the slot or by clicking the button) completes and
    leaves the texts of both fields as they were. *)
Theorem fields_and_mode_are_independent
    (os : Qt.Platform) (parent : ptr) (acts : list Action) (s : string) :
  exists w, session os parent acts = Done w
    /\ preserves mode (TypeUser s) w
    /\ preserves mode (TypeOutputDir s) w
    /\ (forall a, In a [CallSetModeResearcher; CallSetModeAdmin; ClickResearcher; ClickAdmin]
          -> preserves userName a w /\ preserves outputDirectory a w).
Proof.
  reach os parent acts. unfold preserves.
  split; [|split].
  - eexists. split; [apply perform_settled|]. rewrite !settled_mode. eauto.
  - eexists. split; [apply perform_settled|]. rewrite !settled_mode. eauto.
  - intros a Ha. split; eexists; (split; [apply perform_settled|]).
    + rewrite !settled_userName. split; [eauto|].
      cbn [In] in Ha. destruct Ha as [<-|[<-|[<-|[<-|[]]]]]; reflexivity.
    + rewrite !settled_outputDirectory. split; [eauto|].
      cbn [In] in Ha. destruct Ha as [<-|[<-|[<-|[<-|[]]]]]; reflexivity.
Qed.

(** C6.  In every state a session can reach, every operation (the two mode
    slots, a click on any of the three buttons, an edit of either field)
    completes without a fault, and so does the activation of Begin read as
    a submit. *)
Theorem operations_never_fault
    (os : Qt.Platform) (parent : ptr) (acts : list Action) (a : Action) :
  exists w w' out, session os parent acts = Done w
    /\ perform a w = Done (tt, w')
    /\ activateBegin w = Done (out, w).
Proof.
  destruct (session_step os parent acts a) as (m & u & o & E & P).
  eexists _, _, _. split; [exact E|]. split; [exact P|].
  apply settled_activateBegin.
Qed.

(** C7.  In every state a session can reach, [setModeAdmin] makes the mode
    Admin, leaves the Admin button checked and highlighted in #F26565, a
    colour other than the one [setModeResearcher] gives the Researcher
    button (#84F28A), and leaves the Researcher button unchecked and
    without highlight. *)
Theorem setModeAdmin_marks_admin
    (os : Qt.Platform) (parent : ptr) (acts : list Action) :
  exists w wa wr, session os parent acts = Done w
    /\ setModeAdmin w = Done (tt, wa)
    /\ mode wa = Some Admin
    /\ marked_active adminButton_ wa = true
    /\ marked_inactive researcherButton_ wa = true
    /\ highlight adminButton_ wa = Some "#F26565"
    /\ setModeResearcher w = Done (tt, wr)
    /\ highlight researcherButton_ wr = Some "#84F28A"
    /\ highlight adminButton_ wa <> highlight researcherButton_ wr.
Proof.
  destruct (session_settled os parent acts) as (m & u & o & E).
  exists (settled parent m u o), (settled parent Admin u o), (settled parent Researcher u o).
  split; [exact E|].
  split; [apply (perform_settled CallSetModeAdmin)|].
  split; [reflexivity|].
  split; [vm_compute; reflexivity|].
  split; [vm_compute; reflexivity|].
  split; [vm_compute; reflexivity|].
  split; [apply (perform_settled CallSetModeResearcher)|].
  split; [vm_compute; reflexivity|].
  vm_compute. discriminate.
Qed.

(** C8.  The user name is empty right after construction.  In every state a
    session can reach, an edit of the user field to any text [s] leaves it
    reading exactly [s], and every other action leaves it as it was. *)
Theorem userName_is_only_what_was_typed
    (os : Qt.Platform) (parent : ptr) (acts : list Action) (a : Action) :
  (exists w0, HomeWindow_ctor os parent = Done w0 /\ userName w0 = Some "")
  /\ (exists w w', session os parent acts = Done w
        /\ perform a w = Done (tt, w')
        /\ is_Some (userName w)
        /\ userName w' = match a with
                         | TypeUser s => Some s
                         | _ => userName w
                         end).
Proof.
  split.
  - eexists. split; [apply ctor_settled | reflexivity].
  - destruct (session_step os parent acts a) as (m & u & o & E & P).
    eexists _, _. split; [exact E|]. split; [exact P|].
    rewrite !settled_userName. split; [eauto|].
    destruct a; reflexivity.
Qed.

(** C9.  What the mode buttons show after a sequence of mode calls depends
    on the last call alone: two sessions, whatever their platforms, parents
    and earlier calls, that end with the same call show the same mode, the
    same check marks and the same sheets, the mode being the one the call
    selects; and making the same call twice in a row gives the very state
    that making it once gives. *)
Theorem mode_depends_on_last_call
    (os1 os2 : Qt.Platform) (parent1 parent2 : ptr)
    (calls1 calls2 : list ModeCall) (c : ModeCall) :
  exists w1 w2,
    session os1 parent1 (map selection (calls1 ++ [c])) = Done w1
    /\ session os2 parent2 (map selection (calls2 ++ [c])) = Done w2
    /\ mode w1 = Some (selected c)
    /\ mode w2 = Some (selected c)
    /\ mode_display w1 = mode_display w2
    /\ session os1 parent1 (map selection (calls1 ++ [c; c])) = Done w1.
Proof.
  destruct (session_step os1 parent1 (map selection calls1) (selection c))
    as (m1 & u1 & o1 & E1 & P1).
  destruct (session_step os2 parent2 (map selection calls2) (selection c))
    as (m2 & u2 & o2 & E2 & P2).
  exists (settled parent1 (selected c) u1 o1), (settled parent2 (selected c) u2 o2).
  rewrite !map_app, !session_app, E1, E2. cbn [map run]. rewrite P1, P2.
  rewrite (perform_settled (selection c)).
  destruct c; repeat split; reflexivity.
Qed.

(** C10.  Two constructions on platforms that report the same downloads
    location and the same home path, whatever else the platforms report and
    whatever the parents, give the same form state: same mode, same user
    name, same output directory. *)
Theorem construction_depends_on_lookups_only
    (os1 os2 : Qt.Platform) (parent1 parent2 : ptr)
    (Hdownloads : Qt.writableLocation os1 Qt.DownloadLocation
                  = Qt.writableLocation os2 Qt.DownloadLocation)
    (Hhome : Qt.homePath os1 = Qt.homePath os2) :
  exists w1 w2 form,
    HomeWindow_ctor os1 parent1 = Done w1
    /\ HomeWindow_ctor os2 parent2 = Done w2
    /\ formState w1 = Some form
    /\ formState w2 = Some form.
Proof.
  eexists _, _, _.
  split; [apply ctor_settled|]. split; [apply ctor_settled|].
  rewrite !settled_formState. unfold installed_directory, initial_directory.
  rewrite Hdownloads, Hhome. split; reflexivity.
Qed.

(** C10 at two platforms that agree on the downloads location and the home
    path, differ on every other location, and are given different parents. *)
Lemma construction_depends_on_lookups_only_witness :
  exists w1 w2 form,
    HomeWindow_ctor example_platform nullptr = Done w1
    /\ HomeWindow_ctor other_platform (Some 7) = Done w2
    /\ formState w1 = Some form
    /\ formState w2 = Some form.
Proof.
  apply (construction_depends_on_lookups_only
           example_platform other_platform nullptr (Some 7));
    reflexivity.
Defined.

(** ** Further properties of the code *)

Lemma run_settled_fold (acts : list Action) (parent : ptr) (f : FormState) :
  run acts (settled parent (fs_mode f) (fs_userName f) (fs_outputDirectory f))
  = Done (let f' := fold_left form_step acts f in
          settled parent (fs_mode f') (fs_userName f') (fs_outputDirectory f')).
Proof.
  revert f. induction acts as [|a acts IH]; intros f; [reflexivity|].
  cbn [run fold_left]. rewrite perform_settled. apply (IH (form_step f a)).
Qed.

(** X1.  The widgets implement the three-field machine: after construction
    and any actions, the form reads what folding [form_step] over the
    actions gives, starting from Researcher, an empty user name and the
    directory the constructor installed (the chosen path, cut to what a
    line edit holds). *)
Theorem session_refines_form (os : Qt.Platform) (parent : ptr) (acts : list Action) :
  exists w, session os parent acts = Done w
    /\ formState w = Some (fold_left form_step acts (form_init os)).
Proof.
  unfold session. rewrite ctor_settled.
  change (settled parent Researcher "" (installed_directory os))
    with (settled parent (fs_mode (form_init os)) (fs_userName (form_init os))
            (fs_outputDirectory (form_init os))).
  rewrite run_settled_fold.
  eexists. split; [reflexivity|]. cbv zeta. rewrite settled_formState.
  destruct (fold_left form_step acts (form_init os)); reflexivity.
Qed.

(** X2.  In every state a session can reach, a click on a mode button runs
    exactly one slot, the one of that button, and ends in the world that
    calling the slot directly gives; a click on Begin runs none. *)
Theorem click_runs_its_slot
    (os : Qt.Platform) (parent : ptr) (acts : list Action) (m : Mode) :
  exists w w', session os parent acts = Done w
    /\ (p ← field (button_for m); click p) w = Done ([slot_for m], w')
    /\ invoke (slot_for m) w = Done (tt, w')
    /\ (p ← field beginButton_; click p) w = Done ([], w).
Proof.
  destruct (session_settled os parent acts) as (m0 & u & o & E).
  exists (settled parent m0 u o), (settled parent m u o).
  split; [exact E|]. destruct m, m0; repeat split; reflexivity.
Qed.

(** X3.  In every state a session can reach the window is in a mode, and
    selecting that mode again, by calling its slot or by clicking its
    button, leaves the whole world as it is: a click cannot uncheck the
    active button. *)
Theorem reselecting_changes_nothing
    (os : Qt.Platform) (parent : ptr) (acts : list Action) :
  exists w m, session os parent acts = Done w
    /\ mode w = Some m
    /\ perform (call_for m) w = Done (tt, w)
    /\ perform (click_for m) w = Done (tt, w).
Proof.
  destruct (session_settled os parent acts) as (m & u & o & E).
  exists (settled parent m u o), m. split; [exact E|].
  split; [apply settled_mode|].
  split; [rewrite perform_settled | rewrite perform_settled]; destruct m; reflexivity.
Qed.

Lemma settled_wired (parent : ptr) (m : Mode) (u o : string) :
  wired (settled parent m u o).
Proof.
  unfold wired, settled.
  eexists 0, 1, 2, 3, 4, 5, _, _, _, _, _, _. cbn [this heap researcherButton_
    adminButton_ userEdit_ outputDirEdit_ beginButton_].
  do 5 (split; [reflexivity|]).
  split; [apply NoDup_ListNoDup; repeat constructor; cbn; intuition discriminate|].
  do 6 (split; [reflexivity|]).
  destruct m; cbn; repeat split; reflexivity.
Qed.

(** X4.  No action allocates an object, re-targets a member pointer,
    regroups a button or rewires a signal: after construction and any
    actions the heap has the size the constructor left it, the widgets the
    window points to have the shape [setupUi] gave them, and the window's
    parent, title and style sheet are those of the constructor. *)
Theorem sessions_keep_the_wiring (os : Qt.Platform) (p : ptr) (acts : list Action) :
  exists w0 w, HomeWindow_ctor os p = Done w0
    /\ session os p acts = Done w
    /\ wired w
    /\ length (heap w) = length (heap w0)
    /\ this w = this w0
    /\ parent (this w) = p
    /\ windowTitle (this w) = "SlideApp"
    /\ styleSheet (this w) = sheet_window.
Proof.
  destruct (session_settled os p acts) as (m & u & o & E).
  eexists _, (settled p m u o).
  split; [apply ctor_settled|]. split; [exact E|].
  split; [apply settled_wired|]. repeat split; reflexivity.
Qed.

Lemma append_nonempty (s t : string) : t <> "" -> s +:+ t <> "".
Proof.
  intros Ht H. destruct s as [|c s]; cbn in H; [exact (Ht H) | discriminate H].
Qed.

(** X5.  The output directory the constructor installs is never the empty
    text, whatever the platform reports; when the platform reports neither
    a downloads location nor a home path it is "/Downloads". *)
Theorem default_directory_is_not_empty (os : Qt.Platform) (parent : ptr) :
  exists w d, HomeWindow_ctor os parent = Done w
    /\ outputDirectory w = Some d
    /\ d <> ""
    /\ (Qt.writableLocation os Qt.DownloadLocation = "" -> Qt.homePath os = ""
        -> d = "/Downloads").
Proof.
  eexists _, _. split; [apply ctor_settled|].
  split; [apply settled_outputDirectory|].
  unfold installed_directory, initial_directory.
  destruct (Qt.writableLocation os Qt.DownloadLocation) as [|c s] eqn:E; cbn [Qt.isEmpty].
  - split; [apply capped_nonempty, append_nonempty; discriminate|].
    intros _ ->. vm_compute. reflexivity.
  - split; [apply capped_nonempty; discriminate|]. intros H; discriminate H.
Qed.

(** *** Frames on arbitrary worlds *)

Lemma bind_Done {A B : Type} (m : M A) (f : A -> M B) (w w2 : World) (y : B) :
  (m ≫= f) w = Done (y, w2) <-> exists x w1, m w = Done (x, w1) /\ f x w1 = Done (y, w2).
Proof.
  unfold mbind, M_bind. destruct (m w) as [[x w1]|e]; split.
  - intros H. exists x, w1. split; [reflexivity | exact H].
  - intros (x' & w1' & [= <- <-] & H). exact H.
  - intros H; discriminate H.
  - intros (x' & w1' & H & _); discriminate H.
Qed.

Lemma load_Done (p : ptr) (w w' : World) (o : QObject) :
  load p w = Done (o, w') <-> exists a, p = Some a /\ heap w !! a = Some o /\ w' = w.
Proof.
  unfold load. destruct p as [a|]; [destruct (heap w !! a) as [o'|] eqn:E|]; split;
    try (intros H; discriminate H); try (intros (a' & H & _); discriminate H).
  - intros [= <- <-]. exists a. repeat split; [exact E].
  - intros (a' & [= <-] & H & ->). rewrite E in H. injection H as ->. reflexivity.
  - intros (a' & [= <-] & H & _). rewrite E in H. discriminate H.
Qed.

Lemma button_Done (p : ptr) (w w' : World) (b : QPushButton) :
  button p w = Done (b, w')
  <-> exists a, p = Some a /\ heap w !! a = Some (PushButton b) /\ w' = w.
Proof.
  unfold button. rewrite bind_Done. split.
  - intros (o & w1 & L & H). apply load_Done in L as (a & -> & E & ->).
    destruct o; try discriminate H. injection H as -> ->. exists a; auto.
  - intros (a & -> & E & ->). exists (PushButton b), w. split; [|reflexivity].
    apply load_Done. exists a; auto.
Qed.

Lemma buttonGroup_Done (p : ptr) (w w' : World) (g : QButtonGroup) :
  buttonGroup p w = Done (g, w')
  <-> exists a, p = Some a /\ heap w !! a = Some (ButtonGroup g) /\ w' = w.
Proof.
  unfold buttonGroup. rewrite bind_Done. split.
  - intros (o & w1 & L & H). apply load_Done in L as (a & -> & E & ->).
    destruct o; try discriminate H. injection H as -> ->. exists a; auto.
  - intros (a & -> & E & ->). exists (ButtonGroup g), w. split; [|reflexivity].
    apply load_Done. exists a; auto.
Qed.

Lemma update_button_Done (p : ptr) (f : QPushButton -> QPushButton) (w w' : World) (x : unit) :
  Qt.update_button p f w = Done (x, w')
  <-> exists a b, p = Some a /\ heap w !! a = Some (PushButton b)
                 /\ w' = with_heap (<[a := PushButton (f b)]> (heap w)) w.
Proof.
  unfold Qt.update_button. rewrite bind_Done. split.
  - intros (b & w1 & B & H). apply button_Done in B as (a & -> & E & ->).
    injection H as <-. exists a, b; auto.
  - intros (a & b & -> & E & ->). exists b, w. split.
    + apply button_Done. exists a; auto.
    + destruct x; reflexivity.
Qed.

Lemma update_group_Done (p : ptr) (f : QButtonGroup -> QButtonGroup) (w w' : World) (x : unit) :
  Qt.update_group p f w = Done (x, w')
  <-> exists a g, p = Some a /\ heap w !! a = Some (ButtonGroup g)
                 /\ w' = with_heap (<[a := ButtonGroup (f g)]> (heap w)) w.
Proof.
  unfold Qt.update_group. rewrite bind_Done. split.
  - intros (g & w1 & B & H). apply buttonGroup_Done in B as (a & -> & E & ->).
    injection H as <-. exists a, g; auto.
  - intros (a & g & -> & E & ->). exists g, w. split.
    + apply buttonGroup_Done. exists a; auto.
    + destruct x; reflexivity.
Qed.

Lemma spares_refl (w : World) : spares w w.
Proof. split; reflexivity. Qed.

Lemma spares_trans (w1 w2 w3 : World) : spares w1 w2 -> spares w2 w3 -> spares w1 w3.
Proof. intros [T1 E1] [T2 E2]. split; congruence. Qed.

(** Overwriting an object that is not a line edit by another that is not. *)
Lemma spares_overwrite (w : World) (a : nat) (old new : QObject) :
  heap w !! a = Some old -> edit_of old = None -> edit_of new = None ->
  spares w (with_heap (<[a := new]> (heap w)) w).
Proof.
  intros E Hold Hnew. split; [reflexivity|].
  unfold edits, with_heap; cbn [heap].
  rewrite list_fmap_insert, Hnew. apply list_insert_id.
  rewrite list_lookup_fmap, E. cbn. rewrite Hold. reflexivity.
Qed.

Lemma framing_ret {A : Type} (x : A) : framing (mret x : M A).
Proof. intros w y w' [= <- <-]. apply spares_refl. Qed.

Lemma framing_crash {A : Type} (e : fault) : framing (crash e : M A).
Proof. intros w y w' H. discriminate H. Qed.

Lemma framing_bind {A B : Type} (m : M A) (f : A -> M B) :
  framing m -> (forall x, framing (f x)) -> framing (m ≫= f).
Proof.
  intros Hm Hf w y w2 H. apply bind_Done in H as (x & w1 & H1 & H2).
  eapply spares_trans; [eapply Hm, H1 | eapply Hf, H2].
Qed.

Lemma framing_field (f : HomeWindow -> ptr) : framing (field f).
Proof. intros w y w' [= <- <-]. apply spares_refl. Qed.

Lemma framing_button (p : ptr) : framing (button p).
Proof. intros w y w' H. apply button_Done in H as (a & _ & _ & ->). apply spares_refl. Qed.

Lemma framing_buttonGroup (p : ptr) : framing (buttonGroup p).
Proof.
  intros w y w' H. apply buttonGroup_Done in H as (a & _ & _ & ->). apply spares_refl.
Qed.

Lemma framing_update_button (p : ptr) (f : QPushButton -> QPushButton) :
  framing (Qt.update_button p f).
Proof.
  intros w [] w' H. apply update_button_Done in H as (a & b & -> & E & ->).
  eapply spares_overwrite; [exact E | reflexivity | reflexivity].
Qed.

Lemma framing_update_group (p : ptr) (f : QButtonGroup -> QButtonGroup) :
  framing (Qt.update_group p f).
Proof.
  intros w [] w' H. apply update_group_Done in H as (a & g & -> & E & ->).
  eapply spares_overwrite; [exact E | reflexivity | reflexivity].
Qed.

Create HintDb framing.
#[local] Hint Resolve framing_ret framing_crash framing_field framing_button
  framing_buttonGroup framing_update_button framing_update_group : framing.

(** Splits a framing goal along the structure of the computation. *)
Ltac framing_step :=
  match goal with
  | |- framing (mbind _ _) => apply framing_bind; [|intros ?]
  | |- framing (if ?b then _ else _) => destruct b
  | |- framing (match ?x with _ => _ end) => destruct x
  | |- framing _ => solve [auto with framing]
  end.

Lemma framing_isChecked (p : ptr) : framing (Qt.isChecked p).
Proof. unfold Qt.isChecked. repeat framing_step. Qed.

Lemma framing_first_checked (previous : ptr) (l : list nat) :
  framing (Qt.first_checked previous l).
Proof.
  induction l as [|a l IH]; cbn [Qt.first_checked]; [auto with framing|].
  apply framing_bind; [apply framing_isChecked|]. intros c.
  destruct (negb (ptr_eqb (Some a) previous) && c); [auto with framing | exact IH].
Qed.

Lemma framing_detectCheckedButton (grp : ptr) : framing (Qt.detectCheckedButton grp).
Proof.
  unfold Qt.detectCheckedButton.
  pose proof framing_first_checked. repeat framing_step.
Qed.

Lemma framing_queryCheckedButton (p : ptr) : framing (Qt.queryCheckedButton p).
Proof. unfold Qt.queryCheckedButton. repeat framing_step. Qed.

#[local] Hint Resolve framing_isChecked framing_first_checked
  framing_detectCheckedButton framing_queryCheckedButton : framing.

Lemma framing_nextCheckState (sc : ptr -> bool -> M unit) (p : ptr) :
  (forall q c, framing (sc q c)) -> framing (Qt.nextCheckState sc p).
Proof. intros H. unfold Qt.nextCheckState. repeat framing_step. Qed.

Lemma framing_notifyChecked (sc : ptr -> bool -> M unit) (p : ptr) :
  (forall q c, framing (sc q c)) -> framing (Qt.notifyChecked sc p).
Proof.
  intros H. pose proof (framing_nextCheckState sc) as N.
  unfold Qt.notifyChecked. repeat framing_step.
Qed.

Lemma framing_setChecked_rec (depth : nat) (p : ptr) (checked : bool) :
  framing (Qt.setChecked_rec depth p checked).
Proof.
  revert p checked. induction depth as [|d IH]; intros p checked;
    cbn [Qt.setChecked_rec]; [auto with framing|].
  pose proof (fun q => framing_notifyChecked (Qt.setChecked_rec d) q IH) as N.
  repeat framing_step.
Qed.

Lemma framing_setChecked (p : ptr) (checked : bool) : framing (Qt.setChecked p checked).
Proof. apply framing_setChecked_rec. Qed.

Lemma framing_setStyleSheet (p : ptr) (sheet : string) :
  framing (Qt.QPushButton_setStyleSheet p sheet).
Proof. apply framing_update_button. Qed.

#[local] Hint Resolve framing_setChecked framing_setStyleSheet : framing.

Lemma framing_setModeResearcher : framing setModeResearcher.
Proof. unfold setModeResearcher. repeat framing_step. Qed.

Lemma framing_setModeAdmin : framing setModeAdmin.
Proof. unfold setModeAdmin. repeat framing_step. Qed.

Lemma framing_invoke (s : Slot) : framing (invoke s).
Proof. destruct s; [apply framing_setModeResearcher | apply framing_setModeAdmin]. Qed.

Lemma framing_emit (slots : list Slot) : framing (emit slots).
Proof.
  induction slots as [|s slots IH]; cbn [emit]; [auto with framing|].
  apply framing_bind; [apply framing_invoke|]. intros _.
  apply framing_bind; [exact IH|]. intros ran. auto with framing.
Qed.

Lemma framing_click (p : ptr) : framing (click p).
Proof.
  pose proof framing_emit as Em.
  pose proof (fun q => framing_nextCheckState Qt.setChecked q framing_setChecked) as N.
  unfold click. repeat framing_step.
Qed.

Lemma framing_perform (a : Action) : is_edit a = false -> framing (perform a).
Proof.
  pose proof framing_click as C.
  pose proof framing_setModeResearcher. pose proof framing_setModeAdmin.
  destruct a; intros E; try discriminate E; cbn [perform]; repeat framing_step.
Qed.

(** The texts of the two fields are read off the window's pointers and the
    line edits alone. *)
Lemma text_at_spared (f : HomeWindow -> ptr) (w w' : World) :
  spares w w' -> peek (p ← field f; Qt.text p) w' = peek (p ← field f; Qt.text p) w.
Proof.
  intros [T E].
  assert (R : forall v, peek (p ← field f; Qt.text p) v
                        = a ← f (this v); e ← edits v !! a; le_text <$> e).
  { intros v. unfold peek, field, Qt.text, lineEdit, load, get_this, edits,
      mbind at 1 2 3 4, M_bind; cbn.
    destruct (f (this v)) as [a|]; cbn; [|reflexivity].
    rewrite list_lookup_fmap. destruct (heap v !! a) as [[]|]; reflexivity. }
  rewrite !R, T, E. reflexivity.
Qed.

(** X6.  On any world whatever, reached by a session or not, an action that
    is not an edit (a mode slot, a click on any button) that completes
    leaves the window's fields, the number of objects and the texts of the
    user and output directory fields as they were. *)
Theorem mode_actions_spare_the_fields (a : Action) (w w' : World) :
  is_edit a = false ->
  perform a w = Done (tt, w') ->
  this w' = this w
  /\ length (heap w') = length (heap w)
  /\ userName w' = userName w
  /\ outputDirectory w' = outputDirectory w.
Proof.
  intros Ha H. pose proof (framing_perform a Ha w tt w' H) as S.
  split; [apply S|]. split.
  - destruct S as [_ E]. apply (f_equal length) in E.
    unfold edits in E. rewrite !length_fmap in E. exact E.
  - split; apply text_at_spared, S.
Qed.

(** X6 at a click on Admin in a window that reads ("alice", "/tmp/out"). *)
Lemma mode_actions_spare_the_fields_witness :
  this (settled nullptr Admin "alice" "/tmp/out")
  = this (settled nullptr Researcher "alice" "/tmp/out")
  /\ length (heap (settled nullptr Admin "alice" "/tmp/out"))
     = length (heap (settled nullptr Researcher "alice" "/tmp/out"))
  /\ userName (settled nullptr Admin "alice" "/tmp/out")
     = userName (settled nullptr Researcher "alice" "/tmp/out")
  /\ outputDirectory (settled nullptr Admin "alice" "/tmp/out")
     = outputDirectory (settled nullptr Researcher "alice" "/tmp/out").
Proof.
  apply (mode_actions_spare_the_fields ClickAdmin
           (settled nullptr Researcher "alice" "/tmp/out")
           (settled nullptr Admin "alice" "/tmp/out"));
    reflexivity.
Defined.

Lemma field_bind {B : Type} (f : HomeWindow -> ptr) (k : ptr -> M B) (w : World) :
  (field f ≫= k) w = k (f (this w)) w.
Proof. reflexivity. Qed.

Lemma crash_now {A B : Type} (m : M A) (k : A -> M B) (w : World) :
  (exists e, m w = Crash e) -> exists e, (m ≫= k) w = Crash e.
Proof. intros [e H]. exists e. unfold mbind, M_bind. rewrite H. reflexivity. Qed.

Lemma crash_later {A B : Type} (m : M A) (k : A -> M B) (w : World) :
  framing m ->
  (forall x w1, this w1 = this w -> exists e, k x w1 = Crash e) ->
  exists e, (m ≫= k) w = Crash e.
Proof.
  intros F H. unfold mbind, M_bind.
  destruct (m w) as [[x w1]|e] eqn:E; [|exists e; reflexivity].
  apply H. apply (F w x w1 E).
Qed.

(** X7.  The slots do not test their pointers: on a world in which either
    mode button pointer is null, neither slot completes. *)
Theorem slots_need_both_buttons (s : Slot) (w : World) :
  researcherButton_ (this w) = nullptr \/ adminButton_ (this w) = nullptr ->
  exists e, invoke s w = Crash e.
Proof.
  assert (Null : forall (c : bool) v, exists e, Qt.setChecked nullptr c v = Crash e)
    by (intros c v; exists NullPointer; reflexivity).
  assert (NullS : forall sh v, exists e, Qt.QPushButton_setStyleSheet nullptr sh v = Crash e)
    by (intros sh v; exists NullPointer; reflexivity).
  intros H. destruct s; cbn [invoke].
  - unfold setModeResearcher. rewrite field_bind. destruct H as [H|H].
    + rewrite H. apply crash_now, Null.
    + apply crash_later; [apply framing_setChecked|]. intros _ w1 T1.
      rewrite field_bind.
      apply crash_later; [apply framing_setStyleSheet|]. intros _ w2 T2.
      rewrite field_bind, T2, T1, H. apply NullS.
  - unfold setModeAdmin. rewrite field_bind. destruct H as [H|H].
    + apply crash_later; [apply framing_setChecked|]. intros _ w1 T1.
      rewrite field_bind.
      apply crash_later; [apply framing_setStyleSheet|]. intros _ w2 T2.
      rewrite field_bind, T2, T1, H. apply NullS.
    + rewrite H. apply crash_now, Null.
Qed.

(** X7 on the window as the header initialises it. *)
Lemma slots_need_both_buttons_witness :
  exists e, invoke Slot_setModeAdmin (unbuilt nullptr) = Crash e.
Proof.
  apply (slots_need_both_buttons Slot_setModeAdmin (unbuilt nullptr)).
  left. reflexivity.
Defined.

Lemma sheet_at_lookup (f : HomeWindow -> ptr) (w : World) (a : nat) (b : QPushButton) :
  f (this w) = Some a -> heap w !! a = Some (PushButton b) ->
  sheet_at f w = Some (btn_styleSheet b).
Proof.
  intros F E. unfold sheet_at, peek. rewrite field_bind, F.
  unfold button, load, mbind, M_bind. rewrite E. reflexivity.
Qed.

Lemma checked_at_lookup (f : HomeWindow -> ptr) (w : World) (a : nat) (b : QPushButton) :
  f (this w) = Some a -> heap w !! a = Some (PushButton b) ->
  checked_at f w = Some (btn_checked b).
Proof.
  intros F E. unfold checked_at, peek. rewrite field_bind, F.
  unfold Qt.isChecked, button, load, mbind, M_bind. rewrite E. reflexivity.
Qed.

(** What a slot completes with after its [setChecked]: the two sheets, the
    second written last. *)
Lemma two_sheets (f1 f2 : HomeWindow -> ptr) (s1 s2 : string) (w w' : World) :
  (p ← field f1; Qt.QPushButton_setStyleSheet p s1;;
   q ← field f2; Qt.QPushButton_setStyleSheet q s2) w = Done (tt, w') ->
  this w' = this w
  /\ sheet_at f2 w' = Some s2
  /\ (f1 (this w) <> f2 (this w) -> sheet_at f1 w' = Some s1).
Proof.
  intros H. rewrite field_bind in H.
  apply bind_Done in H as ([] & w1 & H1 & H2). rewrite field_bind in H2.
  apply update_button_Done in H1 as (a & ba & Fa & La & ->).
  apply update_button_Done in H2 as (r & br & Fr & Lr & ->).
  cbn [this heap with_heap] in *.
  split; [reflexivity|]. split.
  - apply (sheet_at_lookup f2 _ r (Qt.set_btn_styleSheet s2 br)); [exact Fr|].
    cbn [heap with_heap].
    apply list_lookup_insert_eq. eapply lookup_lt_Some, Lr.
  - intros Ne. rewrite Fa, Fr in Ne.
    assert (a <> r) by congruence.
    apply (sheet_at_lookup f1 _ a (Qt.set_btn_styleSheet s1 ba)); [exact Fa|].
    cbn [heap with_heap].
    rewrite list_lookup_insert_ne by congruence.
    apply list_lookup_insert_eq. eapply lookup_lt_Some, La.
Qed.

(** X8.  On any world whatever, a slot that completes has installed the
    neutral sheet on the other mode button and, unless the two pointers are
    the same, its own highlight sheet on its own button: the styling does
    not look at the state it finds. *)
Theorem slot_installs_its_sheets (m : Mode) (w w' : World) :
  invoke (slot_for m) w = Done (tt, w') ->
  sheet_at (button_for (other m)) w' = Some sheet_inactive
  /\ (button_for m (this w) <> button_for (other m) (this w)
      -> sheet_at (button_for m) w' = Some (sheet_active m)).
Proof.
  intros H.
  assert (G : exists w1, this w1 = this w /\
            (p ← field (button_for m); Qt.QPushButton_setStyleSheet p (sheet_active m);;
             q ← field (button_for (other m)); Qt.QPushButton_setStyleSheet q sheet_inactive)
              w1 = Done (tt, w')).
  { destruct m; cbn [slot_for invoke] in H;
      [unfold setModeResearcher in H | unfold setModeAdmin in H];
      rewrite field_bind in H; apply bind_Done in H as ([] & w1 & H1 & H2);
      exists w1; (split; [apply (framing_setChecked _ _ _ _ _ H1) | exact H2]). }
  destruct G as (w1 & T & G). apply two_sheets in G as (_ & G2 & G1).
  rewrite T in G1. split; assumption.
Qed.

(** X8 at [setModeAdmin] on a freshly constructed window. *)
Lemma slot_installs_its_sheets_witness :
  sheet_at researcherButton_ (settled nullptr Admin "" "/tmp") = Some sheet_inactive
  /\ (adminButton_ (this (settled nullptr Researcher "" "/tmp"))
      <> researcherButton_ (this (settled nullptr Researcher "" "/tmp"))
      -> sheet_at adminButton_ (settled nullptr Admin "" "/tmp") = Some sheet_admin_active).
Proof.
  apply (slot_installs_its_sheets Admin (settled nullptr Researcher "" "/tmp")
           (settled nullptr Admin "" "/tmp")).
  reflexivity.
Defined.

Lemma bind_eq {A B : Type} (m : M A) (k : A -> M B) (w : World) :
  (m ≫= k) w = match m w with Done (x, w1) => k x w1 | Crash e => Crash e end.
Proof. reflexivity. Qed.

Lemma button_lookup (w : World) (a : nat) (b : QPushButton) :
  heap w !! a = Some (PushButton b) -> button (Some a) w = Done (b, w).
Proof. intros E. apply button_Done. exists a; auto. Qed.

Lemma update_button_lookup (w : World) (a : nat) (b : QPushButton)
    (f : QPushButton -> QPushButton) :
  heap w !! a = Some (PushButton b) ->
  Qt.update_button (Some a) f w
  = Done (tt, with_heap (<[a := PushButton (f b)]> (heap w)) w).
Proof. intros E. apply update_button_Done. exists a, b; auto. Qed.

(** Checking a button that is in no group: it becomes checked when it is
    checkable, nothing else changes, and one level of calls is enough. *)
Lemma setChecked_rec_ungrouped (d : nat) (w : World) (a : nat) (b : QPushButton) :
  heap w !! a = Some (PushButton b) -> btn_group b = nullptr ->
  Qt.setChecked_rec (S d) (Some a) true w
  = Done (tt, with_heap
                (<[a := PushButton (Qt.set_btn_checked (btn_checkable b || btn_checked b) b)]>
                   (heap w)) w).
Proof.
  intros E G. cbn [Qt.setChecked_rec].
  rewrite bind_eq, (button_lookup w a b E).
  destruct b as [t n c k sh g sl]; cbn in G; subst g; cbn [btn_checkable btn_checked].
  destruct c, k; cbn [negb orb Bool.eqb].
  all: try (destruct w as [h th]; unfold with_heap; cbn [heap this]; cbn in E;
            rewrite list_insert_id by exact E; reflexivity).
  rewrite bind_eq. change ((mret false : M bool) w) with (Done (false, w)). cbv iota beta.
  rewrite bind_eq, (update_button_lookup w a _ _ E).
  unfold Qt.notifyChecked. rewrite bind_eq.
  erewrite button_lookup
    by (cbn [heap with_heap]; apply list_lookup_insert_eq; eapply lookup_lt_Some, E).
  reflexivity.
Qed.

(** X9.  A slot sets one check mark and clears none.  On any world in which
    its own button is a push button in no group and the other mode button
    is a push button at another address, the slot completes; afterwards its
    own button is checked if it is checkable and keeps the mark it had if it
    is not, and the other button has the mark it had.  Clearing the other
    mark is left to the exclusive group of lines 39-42, and setting the own
    mark needs the [setCheckable(true)] of lines 34 and 37. *)
Theorem slot_checks_only_its_button
    (m : Mode) (w : World) (a r : nat) (ba br : QPushButton) :
  button_for m (this w) = Some a ->
  button_for (other m) (this w) = Some r ->
  a <> r ->
  heap w !! a = Some (PushButton ba) ->
  btn_group ba = nullptr ->
  heap w !! r = Some (PushButton br) ->
  exists w', invoke (slot_for m) w = Done (tt, w')
    /\ checked_at (button_for m) w' = Some (btn_checkable ba || btn_checked ba)
    /\ checked_at (button_for (other m)) w' = Some (btn_checked br).
Proof.
  intros Fa Fr Ne Ea G Er.
  assert (La : a < length (heap w)) by (eapply lookup_lt_Some, Ea).
  assert (Lr : r < length (heap w)) by (eapply lookup_lt_Some, Er).
  set (ba1 := Qt.set_btn_checked (btn_checkable ba || btn_checked ba) ba).
  set (h1 := <[a := PushButton ba1]> (heap w)).
  set (h2 := <[a := PushButton (Qt.set_btn_styleSheet (sheet_active m) ba1)]> h1).
  set (h3 := <[r := PushButton (Qt.set_btn_styleSheet sheet_inactive br)]> h2).
  assert (E2r : h2 !! r = Some (PushButton br)).
  { unfold h2, h1. rewrite !list_lookup_insert_ne by congruence. exact Er. }
  exists (with_heap h3 w). split; [|split].
  - assert (R : invoke (slot_for m) w
              = (p ← field (button_for m); Qt.setChecked p true;;
                 p ← field (button_for m);
                 Qt.QPushButton_setStyleSheet p (sheet_active m);;
                 q ← field (button_for (other m));
                 Qt.QPushButton_setStyleSheet q sheet_inactive) w)
      by (destruct m; reflexivity).
    rewrite R, field_bind, Fa, bind_eq.
    unfold Qt.setChecked, Qt.call_depth.
    rewrite (setChecked_rec_ungrouped _ w a ba Ea G).
    cbv beta iota. fold ba1 h1. rewrite field_bind. cbn [this with_heap].
    rewrite Fa, bind_eq.
    unfold Qt.QPushButton_setStyleSheet.
    rewrite (update_button_lookup _ a ba1)
      by (cbn [heap]; apply list_lookup_insert_eq, La).
    cbv beta iota. cbn [heap with_heap this]. fold h2.
    rewrite field_bind. unfold with_heap at 1 2; cbn [this heap]. rewrite Fr.
    rewrite (update_button_lookup _ r br) by exact E2r.
    reflexivity.
  - apply (checked_at_lookup _ _ a (Qt.set_btn_styleSheet (sheet_active m) ba1));
      [exact Fa|].
    cbn [heap with_heap]. unfold h3. rewrite list_lookup_insert_ne by congruence.
    unfold h2. apply list_lookup_insert_eq. unfold h1. rewrite length_insert. exact La.
  - apply (checked_at_lookup _ _ r (Qt.set_btn_styleSheet sheet_inactive br));
      [exact Fr|].
    cbn [heap with_heap]. unfold h3. apply list_lookup_insert_eq.
    unfold h2, h1. rewrite !length_insert. exact Lr.
Qed.

(** X9 at [setModeAdmin] on the two mode buttons outside a group, Researcher
    checked: both end up checked. *)
Lemma slot_checks_only_its_button_witness :
  exists w', invoke Slot_setModeAdmin ungrouped = Done (tt, w')
    /\ checked_at adminButton_ w' = Some true
    /\ checked_at researcherButton_ w' = Some true.
Proof.
  apply (slot_checks_only_its_button Admin ungrouped 1 0
           (mkButton "Admin Mode" "" true false sheet_inactive
                     nullptr [Slot_setModeAdmin])
           (mkButton "Researcher Mode" "" true true sheet_researcher_active
                     nullptr [Slot_setModeResearcher]));
    first [reflexivity | discriminate].
Defined.
